(** * A shallow embedding of [aim_toolkit/get_wellcome_pub_ids.py]

    The module reads year-partitioned parquet data from S3, explodes the
    nested [funding] column into one row per acknowledgment, and writes the
    result back to S3.  Pandas data frames are modelled as lists of records
    that keep the pandas row index; Python exceptions are modelled by a small
    error monad. *)

From Stdlib Require Import List String Ascii ZArith Lia Bool DecimalZ.
Import ListNotations.
Open Scope string_scope.

(* ------------------------------------------------------------------ *)
(** ** Python values and errors *)

(** The exceptions the module can raise on the paths we model. *)
Inductive exn : Type :=
  | KeyError (key : string)            (** [frame['grid_id']] on a frame without that column *)
  | ValueError (msg : string)          (** [pd.concat([])] *)
  | ReadError (uri : string)           (** [wr.s3.read_parquet] failed *)
  | UsageError (msg : string).         (** click rejected the command line *)

(** Computations that may raise. *)
Inductive result (A : Type) : Type :=
  | Ok (a : A)
  | Raise (e : exn).
Arguments Ok {A} a.
Arguments Raise {A} e.

Definition bind {A B} (m : result A) (k : A -> result B) : result B :=
  match m with
  | Ok a => k a
  | Raise e => Raise e
  end.

Notation "x <- m ;; k" := (bind m (fun x => k))
  (at level 61, m at next level, right associativity).

(** [str(n)] for a Python [int]: decimal digits, with a leading ["-"] when
    negative. *)
Fixpoint uint_to_string (d : Decimal.uint) : string :=
  match d with
  | Decimal.Nil => ""
  | Decimal.D0 d => String "0"%char (uint_to_string d)
  | Decimal.D1 d => String "1"%char (uint_to_string d)
  | Decimal.D2 d => String "2"%char (uint_to_string d)
  | Decimal.D3 d => String "3"%char (uint_to_string d)
  | Decimal.D4 d => String "4"%char (uint_to_string d)
  | Decimal.D5 d => String "5"%char (uint_to_string d)
  | Decimal.D6 d => String "6"%char (uint_to_string d)
  | Decimal.D7 d => String "7"%char (uint_to_string d)
  | Decimal.D8 d => String "8"%char (uint_to_string d)
  | Decimal.D9 d => String "9"%char (uint_to_string d)
  end.

Definition py_str_int (z : Z) : string :=
  match Z.to_int z with
  | Decimal.Pos d => uint_to_string d
  | Decimal.Neg d => "-" ++ uint_to_string d
  end.

(** [range(a, b)]: the integers [a, a+1, ..., b-1]. *)
Fixpoint range_from (a : Z) (n : nat) : list Z :=
  match n with
  | O => []
  | S n' => a :: range_from (a + 1) n'
  end.

Definition py_range (a b : Z) : list Z := range_from a (Z.to_nat (b - a)).

(* ------------------------------------------------------------------ *)
(** ** [get_s3_uris] (lines 7-26)

    [start_year] and [end_year] arrive as the strings click passes; the body
    applies [int(...)] to them, so the model takes the integers that
    [int(start_year)] and [int(end_year)] return. *)

Definition get_s3_uris (base_uri : string) (start_year end_year : Z) : list string :=
  fold_left
    (fun uris year =>
       app (app uris [base_uri ++ "year=" ++ py_str_int year ++ "/"])
           [base_uri ++ "year=" ++ py_str_int year ++ ".0/"])
    (py_range start_year (end_year + 1))
    [].

Example get_s3_uris_2019_2020 :
  get_s3_uris "s3://b/" 2019 2020 =
  ["s3://b/year=2019/"; "s3://b/year=2019.0/"; "s3://b/year=2020/"; "s3://b/year=2020.0/"].
Proof. reflexivity. Qed.

(* ------------------------------------------------------------------ *)
(** ** Data frames

    A row of the parquet partitions, restricted to the four columns
    [read_parquet] asks for.  An element of [funding] is a struct read as a
    Python dict; only its ['grid_id'] entry is used, null read as [None]. *)

Record ack : Type := mk_ack { ack_grid_id : option string }.

Record publication : Type := mk_publication {
  pub_doi : option string;
  pub_funding : list ack;
  pub_pmid : option string;
  pub_pmcid : option string
}.

(** A frame as [wr.s3.read_parquet] returns it: a [RangeIndex], so the row at
    position [i] has index label [i]. *)
Definition partition := list publication.

(** [df_funded] after line 48: the index label of the source row, the row's
    own columns, and one element of its [funding] list. *)
Record exploded_row : Type := mk_exploded {
  x_index : nat;
  x_doi : option string;
  x_funding : ack;
  x_pmid : option string;
  x_pmcid : option string
}.

(** [df_funded] after line 50, with the new column [grid_id]. *)
Record funded_row : Type := mk_funded {
  f_index : nat;
  f_doi : option string;
  f_funding : ack;
  f_grid_id : option string;
  f_pmid : option string;
  f_pmcid : option string
}.

(** [df_funded] after line 53: columns [doi, grid_id, pmid, pmcid] in that
    order, index label kept. *)
Record out_row : Type := mk_out {
  row_index : nat;
  doi : option string;
  grid_id : option string;
  pmid : option string;
  pmcid : option string
}.

(** Pair every row with its index label. *)
Fixpoint enumerate_from {A} (i : nat) (l : list A) : list (nat * A) :=
  match l with
  | [] => []
  | x :: l' => (i, x) :: enumerate_from (S i) l'
  end.

(** Line 48: [df.loc[df['funding'].str.len() > 0].explode('funding')].
    [explode] repeats the index label of a row once per list element. *)
Definition select_funded (df : partition) : list (nat * publication) :=
  filter (fun '(_, r) => Nat.ltb 0 (List.length (pub_funding r))) (enumerate_from 0 df).

Definition explode_funding (rows : list (nat * publication)) : list exploded_row :=
  flat_map
    (fun '(i, r) =>
       map (fun a => mk_exploded i (pub_doi r) a (pub_pmid r) (pub_pmcid r))
           (pub_funding r))
    rows.

(** Line 49: [pd.DataFrame(df_funded['funding'].to_list())], a fresh frame
    with a [RangeIndex].  Its [grid_id] column exists when the list of dicts
    is non-empty; [pd.DataFrame([])] has no columns at all. *)
Definition funding_grid_id_column (fs : list ack) : option (list (option string)) :=
  match fs with
  | [] => None
  | _ => Some (map ack_grid_id fs)
  end.

(** Line 50: [df_funded['grid_id'] = funding['grid_id']].  Assigning a
    Series aligns it on the index: the row labelled [i] receives the entry
    of [funding['grid_id']] labelled [i], or NaN when there is none. *)
Definition align_on_index (col : list (option string)) (i : nat) : option string :=
  match nth_error col i with
  | Some v => v
  | None => None
  end.

Definition add_grid_id (df_funded : list exploded_row) : result (list funded_row) :=
  match funding_grid_id_column (map x_funding df_funded) with
  | None => Raise (KeyError "grid_id")
  | Some col =>
      Ok (map (fun x => mk_funded (x_index x) (x_doi x) (x_funding x)
                          (align_on_index col (x_index x)) (x_pmid x) (x_pmcid x))
              df_funded)
  end.

(** Pandas [==] between an object column and a scalar: NaN and [None]
    compare unequal to everything. *)
Definition py_eq (v g : option string) : bool :=
  match v, g with
  | Some a, Some b => String.eqb a b
  | _, _ => false
  end.

Definition isna (v : option string) : bool :=
  match v with None => true | Some _ => false end.

(** Lines 51-53.  The two [.loc] selections of lines 51 and 52 build new
    frames that are never assigned; line 53 projects [df_funded] itself. *)
Definition filter_and_project (grid_id : option string) (df_funded : list funded_row)
  : list out_row :=
  let _ := filter (fun r => py_eq (f_grid_id r) grid_id) df_funded in
  let _ := filter (fun r => negb (isna (f_pmid r))) df_funded in
  map (fun r => mk_out (f_index r) (f_doi r) (f_grid_id r) (f_pmid r) (f_pmcid r))
      df_funded.

(** Lines 48-50: the flattened frame with its [grid_id] column. *)
Definition flatten (df : partition) : result (list funded_row) :=
  add_grid_id (explode_funding (select_funded df)).

(** Lines 48-53 on one partition. *)
Definition process_partition (df : partition) (grid_id : option string)
  : result (list out_row) :=
  df_funded <- flatten df ;;
  Ok (filter_and_project grid_id df_funded).

(** Line 56: [pd.concat(dfs)] raises on an empty list. *)
Definition pd_concat (dfs : list (list out_row)) : result (list out_row) :=
  match dfs with
  | [] => Raise (ValueError "No objects to concatenate")
  | _ => Ok (List.concat dfs)
  end.

Section Pipeline.

(** [wr.s3.read_parquet(uri, columns=[...])]: the storage layer, either a
    partition or a read error. *)
Variable read_s3 : string -> result partition.

(** The loop of lines 41-54, appending one frame per URI. *)
Fixpoint read_loop (grid_id : option string) (uris : list string)
    (dfs : list (list out_row)) : result (list (list out_row)) :=
  match uris with
  | [] => Ok dfs
  | uri :: rest =>
      df <- read_s3 uri ;;
      df_funded <- process_partition df grid_id ;;
      read_loop grid_id rest (app dfs [df_funded])
  end.

Definition read_parquet (uris : list string) (grid_id : option string)
  : result (list out_row) :=
  dfs <- read_loop grid_id uris [] ;;
  pd_concat dfs.

(** [wr.s3.to_parquet(df, path, index=False)]: the storage layer's write,
    which may fail (for instance on a [path] that is a prefix rather than an
    object key). *)
Variable write_s3 : list out_row -> string -> result unit.

(** [get_org_dois] (lines 65-85): on success, the output URI and the frame
    written there. *)
Definition get_org_dois (input_uri output_uri : string) (start_year end_year : Z)
    (grid_id : option string) : result (string * list out_row) :=
  let s3_uris := get_s3_uris input_uri start_year end_year in
  df <- read_parquet s3_uris grid_id ;;
  _ <- write_s3 df output_uri ;;
  Ok (output_uri, df).

End Pipeline.

(* ------------------------------------------------------------------ *)
(** ** The command line (lines 59-71)

    [@click.option("--grid_id")] declares no [default=], so click supplies
    [None] when the flag is absent.  Click calls the function with every
    parameter as a keyword argument, so the Python default
    ['grid.52788.30'] of the signature is never used. *)

Record cli_invocation : Type := mk_invocation {
  inv_input_uri : string;
  inv_output_uri : string;
  inv_start_year : string;
  inv_end_year : string;
  inv_grid_id : option string
}.

(** Click's parser loop: the token ["--"] ends option processing and every
    token after it is positional; the option is given as [--grid_id VALUE]
    (the next token is taken as the value, whatever it is) or
    [--grid_id=VALUE]; the last occurrence wins; any other token of length
    at least 2 starting with ["-"] is an unknown option; the rest are
    positional. *)
Fixpoint click_scan (args : list string) (positionals : list string)
    (grid_id : option string) : result (list string * option string) :=
  match args with
  | [] => Ok (positionals, grid_id)
  | a :: rest =>
      if String.eqb a "--" then Ok (app positionals rest, grid_id)
      else if String.eqb a "--grid_id" then
        match rest with
        | v :: rest' => click_scan rest' positionals (Some v)
        | [] => Raise (UsageError "Option '--grid_id' requires an argument.")
        end
      else if String.prefix "--grid_id=" a then
        click_scan rest positionals (Some (substring 10 (String.length a - 10) a))
      else if andb (String.prefix "-" a) (Nat.ltb 1 (String.length a)) then
        Raise (UsageError ("No such option: " ++ a))
      else click_scan rest (app positionals [a]) grid_id
  end.

Definition click_parse (args : list string) : result cli_invocation :=
  scanned <- click_scan args [] None ;;
  match scanned with
  | ([input_uri; output_uri; start_year; end_year], grid_id) =>
      Ok (mk_invocation input_uri output_uri start_year end_year grid_id)
  | _ => Raise (UsageError "wrong number of arguments")
  end.

(** The organisation identifier [get_org_dois] hands to [read_parquet]. *)
Definition cli_target_grid_id (args : list string) : result (option string) :=
  inv <- click_parse args ;;
  Ok (inv_grid_id inv).

Example cli_target_flag :
  cli_target_grid_id ["s3://in/"; "s3://out/"; "2019"; "2020"; "--grid_id"; "grid.1"]
  = Ok (Some "grid.1").
Proof. reflexivity. Qed.

Example cli_target_flag_eq :
  cli_target_grid_id ["--grid_id=grid.1"; "s3://in/"; "s3://out/"; "2019"; "2020"]
  = Ok (Some "grid.1").
Proof. reflexivity. Qed.

(* ------------------------------------------------------------------ *)
(** ** Small examples of the pipeline *)

Definition rec_of (d : string) (gs : list string) (p : option string) : publication :=
  mk_publication (Some d) (map (fun g => mk_ack (Some g)) gs) p None.

Example process_three_funders :
  process_partition [rec_of "d" ["A"; "B"; "C"] (Some "1")] (Some "A") =
  Ok [mk_out 0 (Some "d") (Some "A") (Some "1") None;
      mk_out 0 (Some "d") (Some "A") (Some "1") None;
      mk_out 0 (Some "d") (Some "A") (Some "1") None].
Proof. reflexivity. Qed.

Example process_no_funders :
  process_partition [rec_of "d" [] (Some "1")] (Some "A") = Raise (KeyError "grid_id").
Proof. reflexivity. Qed.

(* ------------------------------------------------------------------ *)
(** ** Lemmas on [get_s3_uris] *)

Section Uris.

Variable base_uri : string.

Let uri_int (y : Z) : string := base_uri ++ "year=" ++ py_str_int y ++ "/".
Let uri_float (y : Z) : string := base_uri ++ "year=" ++ py_str_int y ++ ".0/".

Lemma get_s3_uris_fold (years : list Z) (acc : list string) :
  fold_left
    (fun uris year =>
       app (app uris [base_uri ++ "year=" ++ py_str_int year ++ "/"])
           [base_uri ++ "year=" ++ py_str_int year ++ ".0/"])
    years acc
  = app acc (flat_map (fun y => [uri_int y; uri_float y]) years).
Proof.
  revert acc; induction years as [|y ys IH]; intros acc; simpl.
  - now rewrite app_nil_r.
  - rewrite IH. unfold uri_int, uri_float.
    now rewrite <- !app_assoc.
Qed.

Lemma get_s3_uris_flat (s e : Z) :
  get_s3_uris base_uri s e
  = flat_map (fun y => [uri_int y; uri_float y]) (py_range s (e + 1)).
Proof. unfold get_s3_uris. now rewrite get_s3_uris_fold. Qed.

Lemma flat_range_length (n : nat) (a : Z) :
  List.length (flat_map (fun y => [uri_int y; uri_float y]) (range_from a n)) = (2 * n)%nat.
Proof.
  revert a; induction n as [|n IH]; intros a; simpl; [reflexivity|].
  rewrite IH. lia.
Qed.

Lemma flat_range_nth (n : nat) (a : Z) (k : nat) :
  (k < n)%nat ->
  nth_error (flat_map (fun y => [uri_int y; uri_float y]) (range_from a n)) (2 * k)
    = Some (uri_int (a + Z.of_nat k)) /\
  nth_error (flat_map (fun y => [uri_int y; uri_float y]) (range_from a n)) (2 * k + 1)
    = Some (uri_float (a + Z.of_nat k)).
Proof.
  revert a k; induction n as [|n IH]; intros a k Hk; [lia|].
  destruct k as [|k].
  - simpl. now rewrite Z.add_0_r.
  - replace (2 * S k)%nat with (S (S (2 * k)))%nat by lia.
    replace (S (S (2 * k)) + 1)%nat with (S (S (2 * k + 1)))%nat by lia.
    destruct (IH (a + 1)%Z k) as [H1 H2]; [lia|].
    cbn [range_from flat_map app nth_error].
    rewrite H1, H2.
    replace (a + 1 + Z.of_nat k)%Z with (a + Z.of_nat (S k))%Z by lia.
    split; reflexivity.
Qed.

End Uris.

Lemma py_range_empty (a b : Z) : (b <= a)%Z -> py_range a b = [].
Proof. intros H. unfold py_range. now replace (Z.to_nat (b - a)) with 0%nat by lia. Qed.

Lemma read_parquet_nil (read_s3 : string -> result partition) (grid_id : option string) :
  read_parquet read_s3 [] grid_id = Raise (ValueError "No objects to concatenate").
Proof. reflexivity. Qed.

(* ------------------------------------------------------------------ *)
(** ** Partition URIs *)

(** C4: for [start_year <= end_year], [get_s3_uris] lists, for each year of
    [start_year .. end_year] in ascending order, the URI
    [base + "year=" + y + "/"] followed by [base + "year=" + y + ".0/"], and
    nothing else; for 2019-2020 under ["s3://b/"] that is exactly four URIs. *)
Theorem get_s3_uris_years (base : string) (start_year end_year : Z) :
  (start_year <= end_year)%Z ->
  List.length (get_s3_uris base start_year end_year)
    = (2 * Z.to_nat (end_year - start_year + 1))%nat /\
  (forall k : nat, (k < Z.to_nat (end_year - start_year + 1))%nat ->
     nth_error (get_s3_uris base start_year end_year) (2 * k)
       = Some (base ++ "year=" ++ py_str_int (start_year + Z.of_nat k) ++ "/") /\
     nth_error (get_s3_uris base start_year end_year) (2 * k + 1)
       = Some (base ++ "year=" ++ py_str_int (start_year + Z.of_nat k) ++ ".0/")) /\
  get_s3_uris "s3://b/" 2019 2020 =
    ["s3://b/year=2019/"; "s3://b/year=2019.0/"; "s3://b/year=2020/"; "s3://b/year=2020.0/"].
Proof.
  intros _.
  rewrite get_s3_uris_flat. unfold py_range.
  replace (end_year + 1 - start_year)%Z with (end_year - start_year + 1)%Z by lia.
  split; [|split].
  - apply flat_range_length.
  - intros k Hk. apply (flat_range_nth base (Z.to_nat (end_year - start_year + 1))); exact Hk.
  - reflexivity.
Qed.

Lemma get_s3_uris_years_witness :
  (2019 <= 2020)%Z /\
  List.length (get_s3_uris "s3://b/" 2019 2020) = (2 * Z.to_nat (2020 - 2019 + 1))%nat.
Proof.
  split; [lia|].
  apply (proj1 (get_s3_uris_years "s3://b/" 2019 2020 ltac:(lia))).
Defined.

(** C8: when [end_year < start_year], [get_s3_uris] returns the empty list
    (it is a total function: no error is raised). *)
Theorem get_s3_uris_empty_range (base : string) (start_year end_year : Z) :
  (end_year < start_year)%Z -> get_s3_uris base start_year end_year = [].
Proof.
  intros H. unfold get_s3_uris. rewrite py_range_empty by lia. reflexivity.
Qed.

Lemma get_s3_uris_empty_range_witness :
  (2020 < 2021)%Z /\ get_s3_uris "s3://b/" 2021 2020 = [].
Proof. split; [lia|]. apply get_s3_uris_empty_range. lia. Defined.

(* ------------------------------------------------------------------ *)
(** ** Lemmas on the per-partition steps *)

(** Number of funding acknowledgments of a partition. *)
Definition funding_count (df : partition) : nat :=
  fold_right (fun r acc => (List.length (pub_funding r) + acc)%nat) 0%nat df.

Lemma enumerate_from_nth {A} (l : list A) (i j : nat) (x : A) :
  In (j, x) (enumerate_from i l) -> (i <= j)%nat /\ nth_error l (j - i) = Some x.
Proof.
  revert i; induction l as [|y l IH]; intros i H; simpl in H; [contradiction|].
  destruct H as [H|H].
  - inversion H; subst. rewrite Nat.sub_diag. split; [lia|reflexivity].
  - destruct (IH (S i) H) as [Hle Hn]. split; [lia|].
    replace (j - i)%nat with (S (j - S i)) by lia. exact Hn.
Qed.

Lemma enumerate_from_0 {A} (l : list A) (j : nat) (x : A) :
  In (j, x) (enumerate_from 0 l) -> nth_error l j = Some x.
Proof.
  intros H. apply enumerate_from_nth in H. now rewrite Nat.sub_0_r in H.
Qed.

Lemma explode_select_length_from (df : partition) (i : nat) :
  List.length
    (explode_funding
       (filter (fun '(_, r) => Nat.ltb 0 (List.length (pub_funding r))) (enumerate_from i df)))
  = funding_count df.
Proof.
  revert i; induction df as [|r df IH]; intros i; [reflexivity|].
  cbn [enumerate_from filter funding_count fold_right].
  destruct (Nat.ltb 0 (List.length (pub_funding r))) eqn:E.
  - unfold explode_funding in *. cbn [flat_map]. rewrite length_app, length_map.
    rewrite IH. reflexivity.
  - apply Nat.ltb_ge in E. rewrite IH. unfold funding_count. lia.
Qed.

Lemma explode_select_length (df : partition) :
  List.length (explode_funding (select_funded df)) = funding_count df.
Proof. apply explode_select_length_from. Qed.

Lemma funding_count_zero (df : partition) :
  funding_count df = 0%nat -> forall r, In r df -> pub_funding r = [].
Proof.
  induction df as [|r' df IH]; intros H r Hin; [contradiction|].
  cbn [funding_count fold_right] in H. fold (funding_count df) in H.
  destruct Hin as [<-|Hin].
  - destruct (pub_funding r'); [reflexivity|simpl in H; lia].
  - apply IH; [lia|exact Hin].
Qed.

Lemma select_funded_in (df : partition) (i : nat) (r : publication) :
  In (i, r) (select_funded df) -> nth_error df i = Some r /\ pub_funding r <> [].
Proof.
  unfold select_funded. intros H. apply filter_In in H as [Hin Hlt].
  split; [now apply enumerate_from_0|].
  apply Nat.ltb_lt in Hlt. intros E. rewrite E in Hlt. simpl in Hlt. lia.
Qed.

Lemma explode_funding_in (rows : list (nat * publication)) (x : exploded_row) :
  In x (explode_funding rows) ->
  exists r, In (x_index x, r) rows /\ In (x_funding x) (pub_funding r) /\
    x_doi x = pub_doi r /\ x_pmid x = pub_pmid r /\ x_pmcid x = pub_pmcid r.
Proof.
  unfold explode_funding. intros H. apply in_flat_map in H as [[i r] [Hrow Hx]].
  apply in_map_iff in Hx as [a [<- Ha]].
  exists r. simpl. auto.
Qed.

(** [add_grid_id] fails exactly on an empty frame and otherwise keeps every
    row, in order, adding one column. *)
Lemma add_grid_id_ok (xs : list exploded_row) (ys : list funded_row) :
  add_grid_id xs = Ok ys ->
  ys = map (fun x => mk_funded (x_index x) (x_doi x) (x_funding x)
                       (align_on_index (map ack_grid_id (map x_funding xs)) (x_index x))
                       (x_pmid x) (x_pmcid x)) xs.
Proof.
  unfold add_grid_id, funding_grid_id_column. destruct (map x_funding xs) eqn:E.
  - discriminate.
  - intros H. inversion H. reflexivity.
Qed.

Lemma add_grid_id_raise (xs : list exploded_row) (e : exn) :
  add_grid_id xs = Raise e -> xs = [] /\ e = KeyError "grid_id".
Proof.
  unfold add_grid_id, funding_grid_id_column.
  destruct xs as [|x xs]; simpl; intros H; inversion H; auto.
Qed.

Lemma flatten_length (df : partition) (ys : list funded_row) :
  flatten df = Ok ys -> List.length ys = funding_count df.
Proof.
  unfold flatten. intros H. apply add_grid_id_ok in H. subst ys.
  rewrite length_map. apply explode_select_length.
Qed.

Lemma process_partition_length (df : partition) (g : option string) (out : list out_row) :
  process_partition df g = Ok out -> List.length out = funding_count df.
Proof.
  unfold process_partition, bind. destruct (flatten df) as [ys|e] eqn:E; [|discriminate].
  intros H. inversion H. unfold filter_and_project. rewrite length_map.
  now apply flatten_length.
Qed.

Lemma flatten_rows_from_funded (df : partition) (ys : list funded_row) :
  flatten df = Ok ys ->
  Forall (fun w => exists r, nth_error df (f_index w) = Some r /\ pub_funding r <> [] /\
            f_doi w = pub_doi r /\ f_pmid w = pub_pmid r /\ f_pmcid w = pub_pmcid r) ys.
Proof.
  unfold flatten. intros H. apply add_grid_id_ok in H. subst ys.
  apply Forall_map, Forall_forall. intros x Hx. simpl.
  destruct (explode_funding_in _ _ Hx) as [r [Hrow [_ [Hd [Hp Hc]]]]].
  apply select_funded_in in Hrow as [Hn Hne].
  exists r. auto.
Qed.

(* ------------------------------------------------------------------ *)
(** ** Flattening *)

(** C5: a record whose [funding] list is empty contributes no row to the
    flattened frame of lines 48-50: every flattened row comes from a record
    with a non-empty [funding] list, so none carries the index label of an
    unfunded record.  (When no record of the partition has funding, line 50
    raises [KeyError] and there is no flattened frame at all.) *)
Theorem flatten_drops_unfunded (df : partition) :
  match flatten df with
  | Ok rows =>
      forall (i : nat) (r : publication),
        nth_error df i = Some r -> pub_funding r = [] ->
        Forall (fun w => f_index w <> i) rows
  | Raise e => e = KeyError "grid_id" /\ forall r, In r df -> pub_funding r = []
  end.
Proof.
  destruct (flatten df) as [rows|e] eqn:E.
  - intros i r Hi Hr. apply flatten_rows_from_funded in E.
    eapply Forall_impl; [|exact E]. simpl.
    intros w [r' [Hn [Hne _]]] Heq. rewrite Heq, Hi in Hn. inversion Hn; subst. contradiction.
  - unfold flatten in E. apply add_grid_id_raise in E as [Hx He]. split; [exact He|].
    apply funding_count_zero. rewrite <- explode_select_length, Hx. reflexivity.
Qed.

(** C3 (evaluation): a record at index 0 whose [funding] list holds three
    acknowledgments with grid ids A, B and C yields three rows with the
    record's doi, pmid and pmcid, and all three rows get grid id A: line 50
    aligns [funding['grid_id']] (labels 0, 1, 2) on the exploded index
    (labels 0, 0, 0). *)
Theorem flatten_three_funders_grid_ids :
  flatten [rec_of "10.1/x" ["A"; "B"; "C"] (Some "1")] =
  Ok [mk_funded 0 (Some "10.1/x") (mk_ack (Some "A")) (Some "A") (Some "1") None;
      mk_funded 0 (Some "10.1/x") (mk_ack (Some "B")) (Some "A") (Some "1") None;
      mk_funded 0 (Some "10.1/x") (mk_ack (Some "C")) (Some "A") (Some "1") None].
Proof. reflexivity. Qed.

(* ------------------------------------------------------------------ *)
(** ** Filtering and projection *)

(** C1 (evaluation): on the flattened rows (grid X, pmid 1), (grid X, no
    pmid) and (grid Y, pmid 2) with target X, lines 51-53 return all three
    rows projected to [doi, grid_id, pmid, pmcid]: the selections of lines
    51 and 52 are computed and dropped. *)
Theorem filter_and_project_keeps_all :
  filter_and_project (Some "X")
    [mk_funded 0 None (mk_ack (Some "X")) (Some "X") (Some "1") None;
     mk_funded 1 None (mk_ack (Some "X")) (Some "X") None None;
     mk_funded 2 None (mk_ack (Some "Y")) (Some "Y") (Some "2") None]
  = [mk_out 0 None (Some "X") (Some "1") None;
     mk_out 1 None (Some "X") None None;
     mk_out 2 None (Some "Y") (Some "2") None].
Proof. reflexivity. Qed.

(** C2 (evaluation): one year of partitions, each holding one record funded
    by grid.Y with no pmid; the extraction for grid.X reads both rows, with
    grid id grid.Y and a null pmid, and hands exactly them to the write of
    line 85, whatever the storage then does with them. *)
Theorem get_org_dois_other_org_rows (write_s3 : list out_row -> string -> result unit) :
  read_parquet (fun _ => Ok [rec_of "10.1/y" ["grid.Y"] None])
    (get_s3_uris "s3://b/" 2019 2019) (Some "grid.X")
  = Ok [mk_out 0 (Some "10.1/y") (Some "grid.Y") None None;
        mk_out 0 (Some "10.1/y") (Some "grid.Y") None None] /\
  get_org_dois (fun _ => Ok [rec_of "10.1/y" ["grid.Y"] None]) write_s3
    "s3://b/" "s3://out/res.parquet" 2019 2019 (Some "grid.X")
  = bind (write_s3 [mk_out 0 (Some "10.1/y") (Some "grid.Y") None None;
                    mk_out 0 (Some "10.1/y") (Some "grid.Y") None None]
                   "s3://out/res.parquet")
      (fun _ => Ok ("s3://out/res.parquet",
                    [mk_out 0 (Some "10.1/y") (Some "grid.Y") None None;
                     mk_out 0 (Some "10.1/y") (Some "grid.Y") None None])).
Proof. split; reflexivity. Qed.

(* ------------------------------------------------------------------ *)
(** ** The whole extraction *)

Definition funding_total (parts : list partition) : nat :=
  fold_right (fun p acc => (funding_count p + acc)%nat) 0%nat parts.

Lemma read_loop_length (read_s3 : string -> result partition) (g : option string)
    (uris : list string) (dfs res : list (list out_row)) :
  read_loop read_s3 g uris dfs = Ok res ->
  exists parts, Forall2 (fun u p => read_s3 u = Ok p) uris parts /\
    List.length (List.concat res) = (List.length (List.concat dfs) + funding_total parts)%nat.
Proof.
  revert dfs; induction uris as [|u us IH]; intros dfs H; simpl in H.
  - inversion H; subst. exists []. split; [constructor|]. simpl. lia.
  - unfold bind at 1 in H. destruct (read_s3 u) as [p|e] eqn:Ep; [|discriminate].
    unfold bind at 1 in H. destruct (process_partition p g) as [o|e] eqn:Eo; [|discriminate].
    destruct (IH _ H) as [parts [HF HL]].
    exists (p :: parts). split; [now constructor|].
    rewrite HL, concat_app, length_app. simpl. rewrite app_nil_r.
    rewrite (process_partition_length _ _ _ Eo). lia.
Qed.

(** C6: whenever the extraction produces a table, its row count is at most
    the total number of funding acknowledgments of the records of the
    partitions it read (in fact equal to it). *)
Theorem get_org_dois_row_bound (read_s3 : string -> result partition)
    (write_s3 : list out_row -> string -> result unit)
    (input_uri output_uri : string) (start_year end_year : Z) (g : option string)
    (o : string) (out : list out_row) :
  get_org_dois read_s3 write_s3 input_uri output_uri start_year end_year g = Ok (o, out) ->
  exists parts,
    Forall2 (fun u p => read_s3 u = Ok p) (get_s3_uris input_uri start_year end_year) parts /\
    (List.length out <= funding_total parts)%nat /\
    List.length out = funding_total parts.
Proof.
  unfold get_org_dois, read_parquet, bind.
  destruct (read_loop read_s3 g (get_s3_uris input_uri start_year end_year) []) as [res|e] eqn:E;
    [|discriminate].
  unfold pd_concat. destruct res as [|d ds]; [discriminate|].
  destruct (write_s3 (List.concat (d :: ds)) output_uri) as [[]|e] eqn:W; [|discriminate].
  intros H. inversion H; subst.
  destruct (read_loop_length _ _ _ _ _ E) as [parts [HF HL]].
  exists parts. simpl in HL. split; [exact HF|]. rewrite HL. lia.
Qed.

Lemma get_org_dois_row_bound_witness :
  get_org_dois (fun _ => Ok [rec_of "10.1/y" ["grid.Y"; "grid.X"] (Some "7")])
    (fun _ _ => Ok tt) "s3://b/" "s3://out/res.parquet" 2019 2019 (Some "grid.X")
  = Ok ("s3://out/res.parquet",
        [mk_out 0 (Some "10.1/y") (Some "grid.Y") (Some "7") None;
         mk_out 0 (Some "10.1/y") (Some "grid.Y") (Some "7") None;
         mk_out 0 (Some "10.1/y") (Some "grid.Y") (Some "7") None;
         mk_out 0 (Some "10.1/y") (Some "grid.Y") (Some "7") None]) /\
  exists parts,
    Forall2 (fun u p => (fun _ : string => Ok [rec_of "10.1/y" ["grid.Y"; "grid.X"] (Some "7")]) u = Ok p)
      (get_s3_uris "s3://b/" 2019 2019) parts /\
    (4 <= funding_total parts)%nat /\ 4%nat = funding_total parts.
Proof.
  split; [reflexivity|].
  exact (get_org_dois_row_bound (fun _ => Ok [rec_of "10.1/y" ["grid.Y"; "grid.X"] (Some "7")])
           (fun _ _ => Ok tt) "s3://b/" "s3://out/res.parquet" 2019 2019 (Some "grid.X")
           "s3://out/res.parquet" _ eq_refl).
Defined.

(** C7 (evaluation): when the only partition read holds no record with a
    funding acknowledgment, so no row can match, the extraction raises
    [KeyError] at line 50 ([pd.DataFrame([])] has no [grid_id] column)
    instead of returning an empty table. *)
Theorem get_org_dois_no_funded_records_raises
    (write_s3 : list out_row -> string -> result unit) :
  get_org_dois (fun _ => Ok [rec_of "10.1/z" [] (Some "1")]) write_s3
    "s3://b/" "s3://out/res.parquet" 2019 2019 (Some "grid.52788.30")
  = Raise (KeyError "grid_id").
Proof. reflexivity. Qed.

(** C10: with [end_year < start_year], [get_s3_uris] accepts the range and
    returns no URI, and the extraction then fails in [pd.concat([])] with
    a [ValueError] instead of writing an empty table, whatever the storage
    holds. *)
Theorem get_org_dois_empty_range_raises (read_s3 : string -> result partition)
    (write_s3 : list out_row -> string -> result unit)
    (input_uri output_uri : string) (start_year end_year : Z) (g : option string) :
  (end_year < start_year)%Z ->
  get_s3_uris input_uri start_year end_year = [] /\
  get_org_dois read_s3 write_s3 input_uri output_uri start_year end_year g
    = Raise (ValueError "No objects to concatenate").
Proof.
  intros H.
  assert (Hu : get_s3_uris input_uri start_year end_year = []).
  { unfold get_s3_uris. rewrite py_range_empty by lia. reflexivity. }
  split; [exact Hu|].
  unfold get_org_dois. rewrite Hu. reflexivity.
Qed.

Lemma get_org_dois_empty_range_raises_witness :
  (2020 < 2021)%Z /\
  get_org_dois (fun _ => Ok []) (fun _ _ => Ok tt) "s3://b/" "s3://out/res.parquet" 2021 2020
    (Some "grid.52788.30")
    = Raise (ValueError "No objects to concatenate").
Proof.
  split; [lia|].
  apply (get_org_dois_empty_range_raises (fun _ => Ok []) (fun _ _ => Ok tt)
           "s3://b/" "s3://out/res.parquet" 2021 2020
           (Some "grid.52788.30")). lia.
Defined.

(* ------------------------------------------------------------------ *)
(** ** The default organisation *)

(** C9 (evaluation): invoked without [--grid_id], click passes
    [grid_id=None], so the pipeline's target is [None], not
    ['grid.52788.30']. *)
Theorem cli_target_without_flag :
  cli_target_grid_id ["s3://in/"; "s3://out/"; "2019"; "2020"] = Ok None /\
  cli_target_grid_id ["s3://in/"; "s3://out/"; "2019"; "2020"] <> Ok (Some "grid.52788.30").
Proof. split; [reflexivity|discriminate]. Qed.

(* ------------------------------------------------------------------ *)
(** ** Strings produced by [get_s3_uris] *)

Lemma string_length_append (s t : string) :
  String.length (s ++ t) = (String.length s + String.length t)%nat.
Proof. induction s as [|c s IH]; simpl; [reflexivity|now rewrite IH]. Qed.

Lemma string_append_assoc (s t u : string) : (s ++ t) ++ u = s ++ (t ++ u).
Proof. induction s as [|c s IH]; simpl; [reflexivity|now rewrite IH]. Qed.

Lemma string_append_cancel_l (s t u : string) : s ++ t = s ++ u -> t = u.
Proof. induction s as [|c s IH]; simpl; intros H; [exact H|]. inversion H. auto. Qed.

Lemma string_append_cancel_r (s1 s2 t : string) : s1 ++ t = s2 ++ t -> s1 = s2.
Proof.
  revert s2; induction s1 as [|c s1 IH]; intros s2 H; destruct s2 as [|c' s2].
  - reflexivity.
  - apply (f_equal String.length) in H. simpl in H. rewrite string_length_append in H. lia.
  - apply (f_equal String.length) in H. simpl in H. rewrite string_length_append in H. lia.
  - simpl in H. inversion H; subst. f_equal. auto.
Qed.

(** No character of [s] is a dot. *)
Fixpoint no_dot (s : string) : Prop :=
  match s with
  | EmptyString => True
  | String c s' => c <> "."%char /\ no_dot s'
  end.

Lemma no_dot_uint (d : Decimal.uint) : no_dot (uint_to_string d).
Proof. induction d; simpl; auto; split; auto; discriminate. Qed.

Lemma no_dot_py_str_int (z : Z) : no_dot (py_str_int z).
Proof.
  unfold py_str_int. destruct (Z.to_int z) as [d|d]; [apply no_dot_uint|].
  simpl. split; [discriminate|apply no_dot_uint].
Qed.

(** A year rendered without a dot never ends in [".0"]: the two URI forms of
    [get_s3_uris] cannot coincide. *)
Lemma slash_neq_dot_zero_slash (s1 s2 : string) :
  no_dot s1 -> s1 ++ "/" <> s2 ++ ".0/".
Proof.
  revert s1; induction s2 as [|c s2 IH]; intros s1 Hs H.
  - destruct s1 as [|c s1]; simpl in H; inversion H; subst. simpl in Hs. tauto.
  - destruct s1 as [|c' s1]; simpl in H.
    + inversion H. apply (f_equal String.length) in H2.
      rewrite string_length_append in H2. simpl in H2. lia.
    + inversion H; subst. simpl in Hs. apply (IH s1); tauto.
Qed.

Lemma uint_to_string_inj (d d' : Decimal.uint) :
  uint_to_string d = uint_to_string d' -> d = d'.
Proof.
  revert d'; induction d; intros d' H; destruct d'; simpl in H;
    try discriminate; try reflexivity; inversion H; f_equal; auto.
Qed.

Lemma py_str_int_inj (z z' : Z) : py_str_int z = py_str_int z' -> z = z'.
Proof.
  unfold py_str_int. intros H. apply DecimalZ.to_int_inj.
  destruct (Z.to_int z) as [d|d], (Z.to_int z') as [d'|d'].
  - f_equal. now apply uint_to_string_inj.
  - destruct d; discriminate.
  - destruct d'; discriminate.
  - simpl in H. inversion H. f_equal. now apply uint_to_string_inj.
Qed.

Lemma range_from_in (n : nat) (a y : Z) :
  In y (range_from a n) <-> (a <= y < a + Z.of_nat n)%Z.
Proof.
  revert a; induction n as [|n IH]; intros a; simpl.
  - split; [contradiction|lia].
  - rewrite IH. split; [intros [<-|H]; lia|].
    intros H. destruct (Z.eq_dec a y); [left; exact e|right; lia].
Qed.

Lemma range_from_app (a : Z) (n k : nat) :
  range_from a (n + k) = app (range_from a n) (range_from (a + Z.of_nat n) k).
Proof.
  revert a; induction n as [|n IH]; intros a; simpl.
  - now rewrite Z.add_0_r.
  - rewrite IH. do 3 f_equal. lia.
Qed.

Section UrisMore.

Variable base_uri : string.

Let uri_int (y : Z) : string := base_uri ++ "year=" ++ py_str_int y ++ "/".
Let uri_float (y : Z) : string := base_uri ++ "year=" ++ py_str_int y ++ ".0/".

Lemma uri_int_inj (y y' : Z) : uri_int y = uri_int y' -> y = y'.
Proof.
  unfold uri_int. intros H.
  apply string_append_cancel_l, string_append_cancel_l, string_append_cancel_r in H.
  now apply py_str_int_inj.
Qed.

Lemma uri_float_inj (y y' : Z) : uri_float y = uri_float y' -> y = y'.
Proof.
  unfold uri_float. intros H.
  apply string_append_cancel_l, string_append_cancel_l, string_append_cancel_r in H.
  now apply py_str_int_inj.
Qed.

Lemma uri_int_neq_float (y y' : Z) : uri_int y <> uri_float y'.
Proof.
  unfold uri_int, uri_float. intros H.
  apply string_append_cancel_l, string_append_cancel_l in H.
  exact (slash_neq_dot_zero_slash _ _ (no_dot_py_str_int y) H).
Qed.

Lemma flat_range_in (n : nat) (a : Z) (u : string) :
  In u (flat_map (fun y => [uri_int y; uri_float y]) (range_from a n)) <->
  exists y, (a <= y < a + Z.of_nat n)%Z /\ (u = uri_int y \/ u = uri_float y).
Proof.
  rewrite in_flat_map. split.
  - intros [y [Hy Hu]]. apply range_from_in in Hy. exists y. split; [exact Hy|].
    destruct Hu as [<- | [<- | []]]; auto.
  - intros [y [Hy Hu]]. exists y. split; [now apply range_from_in|].
    destruct Hu as [-> | ->]; simpl; auto.
Qed.

Lemma flat_range_nodup (n : nat) (a : Z) :
  NoDup (flat_map (fun y => [uri_int y; uri_float y]) (range_from a n)).
Proof.
  revert a; induction n as [|n IH]; intros a; simpl; [constructor|].
  constructor.
  - intros [H|H].
    + exact (uri_int_neq_float a a (eq_sym H)).
    + apply flat_range_in in H as [y [Hy [Hu|Hu]]].
      * apply uri_int_inj in Hu. lia.
      * exact (uri_int_neq_float a y Hu).
  - constructor; [|apply IH].
    intros H. apply flat_range_in in H as [y [Hy [Hu|Hu]]].
    + exact (uri_int_neq_float y a (eq_sym Hu)).
    + apply uri_float_inj in Hu. lia.
Qed.

End UrisMore.

(** The URIs of [get_s3_uris] are exactly the two forms for each year of the
    inclusive range: a string is in the list iff it is
    [base + "year=" + y + "/"] or [base + "year=" + y + ".0/"] for some
    year [y] with [start_year <= y <= end_year]. *)
Theorem get_s3_uris_in (base : string) (start_year end_year : Z) (u : string) :
  In u (get_s3_uris base start_year end_year) <->
  exists y, (start_year <= y <= end_year)%Z /\
    (u = base ++ "year=" ++ py_str_int y ++ "/" \/
     u = base ++ "year=" ++ py_str_int y ++ ".0/").
Proof.
  rewrite get_s3_uris_flat. unfold py_range. rewrite flat_range_in.
  split; intros [y [Hy Hu]]; exists y; split; auto; lia.
Qed.

(** [get_s3_uris] never lists a URI twice, so no partition is read twice. *)
Theorem get_s3_uris_nodup (base : string) (start_year end_year : Z) :
  NoDup (get_s3_uris base start_year end_year).
Proof. rewrite get_s3_uris_flat. apply flat_range_nodup. Qed.

(** Splitting the year range at [mid] splits the URI list: the URIs for
    [start_year .. end_year] are those for [start_year .. mid] followed by
    those for [mid + 1 .. end_year]. *)
Theorem get_s3_uris_split (base : string) (start_year mid end_year : Z) :
  (start_year <= mid <= end_year)%Z ->
  get_s3_uris base start_year end_year
  = app (get_s3_uris base start_year mid) (get_s3_uris base (mid + 1) end_year).
Proof.
  intros H. rewrite !get_s3_uris_flat. unfold py_range. rewrite <- flat_map_app.
  replace (Z.to_nat (end_year + 1 - start_year))
    with (Z.to_nat (mid + 1 - start_year) + Z.to_nat (end_year + 1 - (mid + 1)))%nat by lia.
  rewrite range_from_app.
  replace (start_year + Z.of_nat (Z.to_nat (mid + 1 - start_year)))%Z with (mid + 1)%Z by lia.
  reflexivity.
Qed.

Lemma get_s3_uris_split_witness :
  (2019 <= 2020 <= 2022)%Z /\
  get_s3_uris "s3://b/" 2019 2022
  = app (get_s3_uris "s3://b/" 2019 2020) (get_s3_uris "s3://b/" (2020 + 1) 2022).
Proof. split; [lia|]. apply get_s3_uris_split. lia. Defined.

(* ------------------------------------------------------------------ *)
(** ** More on one partition *)

(** [process_partition] fails exactly on a partition in which no record has
    a funding acknowledgment (an empty partition included), and then with
    [KeyError('grid_id')] from line 50. *)
Theorem process_partition_raise_iff (df : partition) (g : option string) (e : exn) :
  process_partition df g = Raise e <-> funding_count df = 0%nat /\ e = KeyError "grid_id".
Proof.
  unfold process_partition, bind, flatten. split.
  - destruct (add_grid_id (explode_funding (select_funded df))) as [ys|e'] eqn:E;
      [discriminate|].
    intros H. inversion H; subst. apply add_grid_id_raise in E as [Hx He].
    split; [|exact He]. rewrite <- explode_select_length, Hx. reflexivity.
  - intros [Hc ->]. rewrite <- explode_select_length in Hc.
    destruct (explode_funding (select_funded df)); [reflexivity|discriminate].
Qed.

(** The grid id argument has no influence on a partition's output. *)
Lemma process_partition_grid_id_irrelevant (df : partition) (g1 g2 : option string) :
  process_partition df g1 = process_partition df g2.
Proof. reflexivity. Qed.

(** Every output row of a partition carries the [doi], [pmid] and [pmcid]
    of the record at its index label, and that record has at least one
    funding acknowledgment. *)
Theorem process_partition_rows_from_parent (df : partition) (g : option string)
    (out : list out_row) :
  process_partition df g = Ok out ->
  Forall (fun w => exists r, nth_error df (row_index w) = Some r /\ pub_funding r <> [] /\
            doi w = pub_doi r /\ pmid w = pub_pmid r /\ pmcid w = pub_pmcid r) out.
Proof.
  unfold process_partition, bind. destruct (flatten df) as [ys|e] eqn:E; [|discriminate].
  intros H. inversion H; subst. apply flatten_rows_from_funded in E.
  unfold filter_and_project. apply Forall_map.
  eapply Forall_impl; [|exact E]. simpl. tauto.
Qed.

Lemma process_partition_rows_from_parent_witness :
  process_partition [rec_of "d" ["A"] (Some "1")] None
    = Ok [mk_out 0 (Some "d") (Some "A") (Some "1") None] /\
  Forall (fun w => exists r, nth_error [rec_of "d" ["A"] (Some "1")] (row_index w) = Some r /\
            pub_funding r <> [] /\
            doi w = pub_doi r /\ pmid w = pub_pmid r /\ pmcid w = pub_pmcid r)
    [mk_out 0 (Some "d") (Some "A") (Some "1") None].
Proof.
  split; [reflexivity|].
  apply (process_partition_rows_from_parent [rec_of "d" ["A"] (Some "1")] None). reflexivity.
Defined.

Lemma explode_select_funding_from (df : partition) (i : nat) :
  map x_funding
    (explode_funding
       (filter (fun '(_, r) => Nat.ltb 0 (List.length (pub_funding r))) (enumerate_from i df)))
  = flat_map pub_funding df.
Proof.
  revert i; induction df as [|r df IH]; intros i; [reflexivity|].
  cbn [enumerate_from filter flat_map].
  destruct (Nat.ltb 0 (List.length (pub_funding r))) eqn:E.
  - unfold explode_funding in *. cbn [flat_map]. rewrite map_app, map_map, IH.
    simpl. now rewrite map_id.
  - apply Nat.ltb_ge in E. destruct (pub_funding r); [|simpl in E; lia].
    simpl. apply IH.
Qed.

(** The flattened frame has one row per funding acknowledgment, in the order
    of the records and, within a record, of its [funding] list. *)
Theorem flatten_funding_order (df : partition) (rows : list funded_row) :
  flatten df = Ok rows -> map f_funding rows = flat_map pub_funding df.
Proof.
  unfold flatten. intros H. apply add_grid_id_ok in H. subst rows.
  rewrite map_map. simpl. unfold select_funded. apply explode_select_funding_from.
Qed.

Lemma flatten_funding_order_witness :
  flatten [rec_of "d" ["A"; "B"] None; rec_of "e" [] None; rec_of "f" ["C"] None]
  = Ok [mk_funded 0 (Some "d") (mk_ack (Some "A")) (Some "A") None None;
        mk_funded 0 (Some "d") (mk_ack (Some "B")) (Some "A") None None;
        mk_funded 2 (Some "f") (mk_ack (Some "C")) (Some "C") None None] /\
  map f_funding
    [mk_funded 0 (Some "d") (mk_ack (Some "A")) (Some "A") None None;
     mk_funded 0 (Some "d") (mk_ack (Some "B")) (Some "A") None None;
     mk_funded 2 (Some "f") (mk_ack (Some "C")) (Some "C") None None]
  = flat_map pub_funding [rec_of "d" ["A"; "B"] None; rec_of "e" [] None; rec_of "f" ["C"] None].
Proof. split; [reflexivity|]. apply flatten_funding_order. reflexivity. Defined.

Lemma explode_single_nth (df : partition) (i : nat) :
  (forall r, In r df -> List.length (pub_funding r) = 1%nat) ->
  forall x,
    In x (explode_funding
            (filter (fun '(_, r) => Nat.ltb 0 (List.length (pub_funding r)))
                    (enumerate_from i df))) ->
    (i <= x_index x)%nat /\
    nth_error
      (explode_funding
         (filter (fun '(_, r) => Nat.ltb 0 (List.length (pub_funding r)))
                 (enumerate_from i df)))
      (x_index x - i) = Some x.
Proof.
  revert i; induction df as [|r df IH]; intros i Hone x Hx; [contradiction|].
  assert (Hr : List.length (pub_funding r) = 1%nat) by (apply Hone; left; reflexivity).
  destruct (pub_funding r) as [|a [|b l]] eqn:Ef; try (simpl in Hr; lia).
  cbn [enumerate_from filter] in *. rewrite Ef in *.
  change (Nat.ltb 0 (List.length [a])) with true in *. cbn beta iota in *.
  unfold explode_funding in *. cbn [flat_map] in *. rewrite Ef in *.
  cbn [map app] in *. destruct Hx as [<-|Hx].
  - simpl. rewrite Nat.sub_diag. split; [lia|reflexivity].
  - destruct (IH (S i) (fun r' H => Hone r' (or_intror H)) x Hx) as [Hle Hn].
    split; [lia|]. replace (x_index x - i)%nat with (S (x_index x - S i)) by lia.
    exact Hn.
Qed.

(** When every record of the partition has exactly one funding
    acknowledgment, the index alignment of line 50 is harmless: every
    flattened row's [grid_id] is the [grid_id] of its own acknowledgment. *)
Theorem flatten_single_funder_grid_id (df : partition) (rows : list funded_row) :
  (forall r, In r df -> List.length (pub_funding r) = 1%nat) ->
  flatten df = Ok rows ->
  Forall (fun w => f_grid_id w = ack_grid_id (f_funding w)) rows.
Proof.
  intros Hone H. unfold flatten in H. pose proof (add_grid_id_ok _ _ H) as Hr. subst rows.
  apply Forall_map, Forall_forall. intros x Hx. simpl.
  unfold select_funded in Hx.
  destruct (explode_single_nth df 0 Hone x Hx) as [_ Hn].
  rewrite Nat.sub_0_r in Hn. unfold align_on_index.
  rewrite map_map, nth_error_map. unfold select_funded. rewrite Hn. reflexivity.
Qed.

Lemma flatten_single_funder_grid_id_witness :
  (forall r, In r [rec_of "d" ["A"] None; rec_of "e" ["B"] None] ->
     List.length (pub_funding r) = 1%nat) /\
  flatten [rec_of "d" ["A"] None; rec_of "e" ["B"] None]
  = Ok [mk_funded 0 (Some "d") (mk_ack (Some "A")) (Some "A") None None;
        mk_funded 1 (Some "e") (mk_ack (Some "B")) (Some "B") None None] /\
  Forall (fun w => f_grid_id w = ack_grid_id (f_funding w))
    [mk_funded 0 (Some "d") (mk_ack (Some "A")) (Some "A") None None;
     mk_funded 1 (Some "e") (mk_ack (Some "B")) (Some "B") None None].
Proof.
  assert (Hone : forall r, In r [rec_of "d" ["A"] None; rec_of "e" ["B"] None] ->
            List.length (pub_funding r) = 1%nat).
  { intros r [<-|[<-|[]]]; reflexivity. }
  split; [exact Hone|]. split; [reflexivity|].
  apply (flatten_single_funder_grid_id _ _ Hone). reflexivity.
Defined.

(* ------------------------------------------------------------------ *)
(** ** More on the whole extraction *)

Lemma read_loop_ok (read_s3 : string -> result partition) (g : option string)
    (uris : list string) (dfs res : list (list out_row)) :
  read_loop read_s3 g uris dfs = Ok res <->
  exists parts outs,
    Forall2 (fun u p => read_s3 u = Ok p) uris parts /\
    Forall2 (fun p o => process_partition p g = Ok o) parts outs /\
    res = app dfs outs.
Proof.
  revert dfs; induction uris as [|u us IH]; intros dfs; simpl.
  - split.
    + intros H. inversion H; subst. exists [], []. rewrite app_nil_r. auto.
    + intros [parts [outs [H1 [H2 ->]]]]. inversion H1; subst. inversion H2; subst.
      now rewrite app_nil_r.
  - unfold bind at 1. destruct (read_s3 u) as [p|e] eqn:Ep.
    + unfold bind at 1. destruct (process_partition p g) as [o|e] eqn:Eo.
      * rewrite IH. split.
        -- intros [parts [outs [H1 [H2 ->]]]].
           exists (p :: parts), (o :: outs). rewrite <- app_assoc.
           repeat split; constructor; auto.
        -- intros [parts [outs [H1 [H2 ->]]]].
           inversion H1 as [|u' p' us' parts' Hp H1']; subst.
           inversion H2 as [|p'' o' parts'' outs' Ho H2']; subst.
           rewrite Ep in Hp. inversion Hp; subst. rewrite Eo in Ho. inversion Ho; subst.
           exists parts', outs'. rewrite <- app_assoc. auto.
      * split; [discriminate|].
        intros [parts [outs [H1 [H2 _]]]].
        inversion H1 as [|u' p' us' parts' Hp H1']; subst.
        inversion H2 as [|p'' o' parts'' outs' Ho H2']; subst.
        rewrite Ep in Hp. inversion Hp; subst. congruence.
    + split; [discriminate|].
      intros [parts [outs [H1 _]]]. inversion H1; subst. congruence.
Qed.

(** [read_parquet] succeeds exactly when it is given at least one URI and
    every URI reads and every partition flattens; the table is then the
    partitions' outputs concatenated in URI order. *)
Theorem read_parquet_ok_iff (read_s3 : string -> result partition)
    (uris : list string) (g : option string) (out : list out_row) :
  read_parquet read_s3 uris g = Ok out <->
  uris <> [] /\
  exists parts outs,
    Forall2 (fun u p => read_s3 u = Ok p) uris parts /\
    Forall2 (fun p o => process_partition p g = Ok o) parts outs /\
    out = List.concat outs.
Proof.
  unfold read_parquet, bind.
  destruct (read_loop read_s3 g uris []) as [res|e] eqn:E.
  - pose proof (proj1 (read_loop_ok _ _ _ _ _) E) as [parts [outs [H1 [H2 Hres]]]].
    simpl in Hres. subst res. unfold pd_concat. split.
    + destruct outs as [|o os]; [discriminate|]. intros H. inversion H; subst.
      split.
      * intros ->. inversion H1; subst. inversion H2.
      * exists parts, (o :: os). auto.
    + intros [Hne [parts' [outs' [H1' [H2' ->]]]]].
      destruct outs as [|o os].
      * inversion H2; subst. inversion H1; subst. contradiction.
      * assert (Hr : read_loop read_s3 g uris [] = Ok outs')
          by (apply read_loop_ok; exists parts', outs'; auto).
        rewrite E in Hr. inversion Hr; subst. reflexivity.
  - split; [discriminate|].
    intros [_ [parts [outs [H1 [H2 _]]]]].
    assert (Hr : read_loop read_s3 g uris [] = Ok outs)
      by (apply read_loop_ok; exists parts, outs; auto).
    congruence.
Qed.

Lemma Forall2_in_left {A B} (R : A -> B -> Prop) (l : list A) (l' : list B) (x : A) :
  Forall2 R l l' -> In x l -> exists y, In y l' /\ R x y.
Proof.
  induction 1 as [|a b l l' Hab HF IH]; intros Hin; [contradiction|].
  destruct Hin as [<-|Hin].
  - exists b. simpl. auto.
  - destruct (IH Hin) as [y [Hy Hr]]. exists y. simpl. auto.
Qed.

Lemma read_loop_grid_id_irrelevant (read_s3 : string -> result partition)
    (g1 g2 : option string) (uris : list string) (dfs : list (list out_row)) :
  read_loop read_s3 g1 uris dfs = read_loop read_s3 g2 uris dfs.
Proof.
  revert dfs; induction uris as [|u us IH]; intros dfs; simpl; [reflexivity|].
  destruct (read_s3 u) as [p|e]; simpl; [|reflexivity].
  rewrite (process_partition_grid_id_irrelevant p g1 g2).
  destruct (process_partition p g2); simpl; [apply IH|reflexivity].
Qed.

(** The organisation identifier has no effect on the extraction: two runs
    that differ only in [grid_id] write the same table (or raise the same
    error). *)
Theorem get_org_dois_grid_id_irrelevant (read_s3 : string -> result partition)
    (write_s3 : list out_row -> string -> result unit)
    (input_uri output_uri : string) (start_year end_year : Z) (g1 g2 : option string) :
  get_org_dois read_s3 write_s3 input_uri output_uri start_year end_year g1
  = get_org_dois read_s3 write_s3 input_uri output_uri start_year end_year g2.
Proof.
  unfold get_org_dois, read_parquet.
  now rewrite (read_loop_grid_id_irrelevant read_s3 g1 g2).
Qed.

(** All or nothing: if any URI of the list cannot be read, [read_parquet]
    raises and returns no partial table. *)
Theorem read_parquet_read_error (read_s3 : string -> result partition)
    (uris : list string) (g : option string) (u : string) (e : exn) :
  In u uris -> read_s3 u = Raise e ->
  exists e', read_parquet read_s3 uris g = Raise e'.
Proof.
  intros Hin Hu. destruct (read_parquet read_s3 uris g) as [out|e'] eqn:E; [|eauto].
  apply read_parquet_ok_iff in E as [_ [parts [outs [H1 _]]]].
  destruct (Forall2_in_left _ _ _ _ H1 Hin) as [p [_ Hp]]. congruence.
Qed.

Lemma read_parquet_read_error_witness :
  In "s3://b/year=2019.0/" (get_s3_uris "s3://b/" 2019 2019) /\
  (fun u : string => if String.eqb u "s3://b/year=2019.0/" then Raise (ReadError u)
                     else Ok [rec_of "d" ["A"] (Some "1")]) "s3://b/year=2019.0/"
    = Raise (ReadError "s3://b/year=2019.0/") /\
  exists e', read_parquet
               (fun u : string => if String.eqb u "s3://b/year=2019.0/" then Raise (ReadError u)
                                  else Ok [rec_of "d" ["A"] (Some "1")])
               (get_s3_uris "s3://b/" 2019 2019) (Some "A") = Raise e'.
Proof.
  split; [simpl; auto|]. split; [reflexivity|].
  apply (read_parquet_read_error _ _ _ "s3://b/year=2019.0/" (ReadError "s3://b/year=2019.0/")).
  - simpl; auto.
  - reflexivity.
Defined.

(** A single partition in which no record has a funding acknowledgment makes
    the whole extraction raise, whatever the other partitions hold. *)
Theorem read_parquet_unfunded_partition_raises (read_s3 : string -> result partition)
    (uris : list string) (g : option string) (u : string) (p : partition) :
  In u uris -> read_s3 u = Ok p -> funding_count p = 0%nat ->
  exists e, read_parquet read_s3 uris g = Raise e.
Proof.
  intros Hin Hu Hc. destruct (read_parquet read_s3 uris g) as [out|e] eqn:E; [|eauto].
  apply read_parquet_ok_iff in E as [_ [parts [outs [H1 [H2 _]]]]].
  destruct (Forall2_in_left _ _ _ _ H1 Hin) as [p' [Hp' Hr]].
  rewrite Hu in Hr. inversion Hr; subst p'.
  destruct (Forall2_in_left _ _ _ _ H2 Hp') as [o [_ Ho]].
  assert (Hraise : process_partition p g = Raise (KeyError "grid_id"))
    by (apply process_partition_raise_iff; auto).
  congruence.
Qed.

Lemma read_parquet_unfunded_partition_raises_witness :
  In "s3://b/year=2019/" ["s3://b/year=2018/"; "s3://b/year=2019/"] /\
  (fun u : string => if String.eqb u "s3://b/year=2019/" then Ok [rec_of "e" [] None]
                     else Ok [rec_of "d" ["A"] (Some "1")]) "s3://b/year=2019/"
    = Ok [rec_of "e" [] None] /\
  funding_count [rec_of "e" [] None] = 0%nat /\
  exists e, read_parquet
              (fun u : string => if String.eqb u "s3://b/year=2019/" then Ok [rec_of "e" [] None]
                                 else Ok [rec_of "d" ["A"] (Some "1")])
              ["s3://b/year=2018/"; "s3://b/year=2019/"] (Some "A") = Raise e.
Proof.
  split; [simpl; auto|]. split; [reflexivity|]. split; [reflexivity|].
  apply (read_parquet_unfunded_partition_raises _ _ _ "s3://b/year=2019/" [rec_of "e" [] None]).
  - simpl; auto.
  - reflexivity.
  - reflexivity.
Defined.

(* ------------------------------------------------------------------ *)
(** ** More on the command line *)

Lemma click_scan_no_flag (args ps : list string) (g : option string)
    (ps' : list string) (g' : option string) :
  (forall a, In a args -> a <> "--grid_id" /\ String.prefix "--grid_id=" a = false) ->
  click_scan args ps g = Ok (ps', g') -> g' = g.
Proof.
  revert ps; induction args as [|a args IH]; intros ps Hno H; simpl in H.
  - inversion H; reflexivity.
  - destruct (String.eqb a "--"); [inversion H; reflexivity|].
    destruct (Hno a (or_introl eq_refl)) as [Hne Hpre].
    apply String.eqb_neq in Hne. rewrite Hne, Hpre in H.
    destruct (andb (String.prefix "-" a) (Nat.ltb 1 (String.length a))); [discriminate|].
    exact (IH _ (fun b Hb => Hno b (or_intror Hb)) H).
Qed.

(** Whenever a command line without any [--grid_id] option is accepted, the
    target organisation passed to the pipeline is [None]. *)
Theorem click_parse_no_flag_none (args : list string) (inv : cli_invocation) :
  (forall a, In a args -> a <> "--grid_id" /\ String.prefix "--grid_id=" a = false) ->
  click_parse args = Ok inv -> inv_grid_id inv = None.
Proof.
  intros Hno. unfold click_parse, bind.
  destruct (click_scan args [] None) as [[ps g]|e] eqn:E; [|discriminate].
  apply click_scan_no_flag in E; [|exact Hno]. subst g.
  destruct ps as [|a [|b [|c [|d [|x ps]]]]]; try discriminate.
  intros H. inversion H. reflexivity.
Qed.

Lemma click_parse_no_flag_none_witness :
  (forall a, In a ["s3://in/"; "s3://out/"; "2019"; "--"; "2020"] ->
     a <> "--grid_id" /\ String.prefix "--grid_id=" a = false) /\
  click_parse ["s3://in/"; "s3://out/"; "2019"; "--"; "2020"]
    = Ok (mk_invocation "s3://in/" "s3://out/" "2019" "2020" None) /\
  inv_grid_id (mk_invocation "s3://in/" "s3://out/" "2019" "2020" None) = None.
Proof.
  assert (Hno : forall a, In a ["s3://in/"; "s3://out/"; "2019"; "--"; "2020"] ->
            a <> "--grid_id" /\ String.prefix "--grid_id=" a = false).
  { intros a [<-|[<-|[<-|[<-|[<-|[]]]]]]; split; (discriminate || reflexivity). }
  split; [exact Hno|]. split; [reflexivity|].
  apply (click_parse_no_flag_none ["s3://in/"; "s3://out/"; "2019"; "--"; "2020"] _ Hno).
  reflexivity.
Defined.

Example click_parse_double_dash :
  click_parse ["s3://in/"; "s3://out/"; "2019"; "--"; "2020"; "--grid_id"; "g"]
  = Raise (UsageError "wrong number of arguments").
Proof. reflexivity. Qed.

Lemma click_scan_app (n : nat) (args rest ps : list string) (g : option string)
    (ps' : list string) (g' : option string) :
  ~ In "--" args ->
  (List.length args <= n)%nat ->
  click_scan args ps g = Ok (ps', g') ->
  click_scan (app args rest) ps g = click_scan rest ps' g'.
Proof.
  revert args ps g; induction n as [|n IH]; intros args ps g Hdd Hlen H.
  - destruct args; [|simpl in Hlen; lia]. simpl in H. inversion H; subst. reflexivity.
  - destruct args as [|a args]; simpl in H |- *; [inversion H; subst; reflexivity|].
    simpl in Hlen.
    assert (Ha : String.eqb a "--" = false)
      by (apply String.eqb_neq; intros ->; apply Hdd; left; reflexivity).
    assert (Hdd' : ~ In "--" args) by (intros Hin; apply Hdd; right; exact Hin).
    rewrite Ha in H |- *.
    destruct (String.eqb a "--grid_id").
    + destruct args as [|v args]; [discriminate|]. simpl.
      apply IH; [intros Hin; apply Hdd'; right; exact Hin|simpl in Hlen; lia|exact H].
    + destruct (String.prefix "--grid_id=" a); [apply IH; [exact Hdd'|lia|exact H]|].
      destruct (andb (String.prefix "-" a) (Nat.ltb 1 (String.length a)));
        [discriminate|].
      apply IH; [exact Hdd'|lia|exact H].
Qed.

(** The last [--grid_id] wins: appending [--grid_id V] to an accepted command
    line that contains no ["--"] token keeps its positional arguments and
    sets the target to [V].  (After a ["--"] the two appended tokens would be
    positional.) *)
Theorem click_parse_last_flag_wins (args : list string) (inv : cli_invocation) (v : string) :
  ~ In "--" args ->
  click_parse args = Ok inv ->
  click_parse (app args ["--grid_id"; v])
  = Ok (mk_invocation (inv_input_uri inv) (inv_output_uri inv)
          (inv_start_year inv) (inv_end_year inv) (Some v)).
Proof.
  intros Hdd. unfold click_parse, bind.
  destruct (click_scan args [] None) as [[ps g]|e] eqn:E; [|discriminate].
  rewrite (click_scan_app (List.length args) args ["--grid_id"; v] [] None ps g
             Hdd (le_n _) E).
  simpl.
  destruct ps as [|a [|b [|c [|d [|x ps]]]]]; try discriminate.
  intros H. inversion H; subst. reflexivity.
Qed.

Lemma click_parse_last_flag_wins_witness :
  ~ In "--" ["s3://in/"; "--grid_id"; "grid.1"; "s3://out/"; "2019"; "2020"] /\
  click_parse ["s3://in/"; "--grid_id"; "grid.1"; "s3://out/"; "2019"; "2020"]
    = Ok (mk_invocation "s3://in/" "s3://out/" "2019" "2020" (Some "grid.1")) /\
  click_parse (app ["s3://in/"; "--grid_id"; "grid.1"; "s3://out/"; "2019"; "2020"]
                   ["--grid_id"; "grid.2"])
    = Ok (mk_invocation "s3://in/" "s3://out/" "2019" "2020" (Some "grid.2")).
Proof.
  assert (Hdd : ~ In "--" ["s3://in/"; "--grid_id"; "grid.1"; "s3://out/"; "2019"; "2020"]).
  { simpl. intros H. repeat destruct H as [H|H]; try discriminate H. exact H. }
  split; [exact Hdd|]. split; [reflexivity|].
  exact (click_parse_last_flag_wins
           ["s3://in/"; "--grid_id"; "grid.1"; "s3://out/"; "2019"; "2020"]
           (mk_invocation "s3://in/" "s3://out/" "2019" "2020" (Some "grid.1"))
           "grid.2" Hdd eq_refl).
Defined.
